(** * vector.py: a shallow embedding of the [Vector] class

    The class stores a tuple of [decimal.Decimal] coordinates and computes
    with them under the context set at the top of the module
    ([getcontext().prec = 30], rounding ROUND_HALF_EVEN), passing through
    binary64 floats for [math.sqrt] and [math.acos].

    Modelling choices, stated once:
    - a [Decimal] is a finite triple (sign, coefficient, exponent); every
      arithmetic operation computes the exact result and rounds it to the
      context precision, as the decimal module does.  The exponent limits of
      the context (Emax = 999999, Emin = -999999) are not modelled: exponents
      are unbounded integers, so the Overflow and Underflow signals do not
      occur.  Infinities and NaN are not coordinates; the one infinity the
      code can produce from finite coordinates, [Decimal(float('inf'))] in
      [magnitude], has its own constructor in [xdecimal];
    - a float is a binary64 value (sign, mantissa, exponent) with subnormals,
      overflow to infinity and round-half-even, which is what
      [Decimal.__float__] and [math.sqrt] give;
    - Python 3 semantics: [round(d, 2)] on a Decimal is [quantize];
      comparisons between Decimal and float are exact;
    - an exception is its class and its [str()]. *)

From Stdlib Require Import ZArith List String Bool Lia.
Import ListNotations.
Open Scope string_scope.
Open Scope Z_scope.

(** ** Exceptions and results *)

Inductive exn_class :=
| Exception            (* raise Exception(msg) *)
| ValueError
| TypeError
| DivisionByZero       (* decimal.DivisionByZero, a ZeroDivisionError *)
| InvalidOperation.    (* decimal.InvalidOperation *)

Record exn := mkExn { exn_cls : exn_class; exn_str : string }.

Inductive result (A : Type) :=
| Ok (a : A)
| Raise (e : exn).
Arguments Ok {A} a.
Arguments Raise {A} e.

Definition bind {A B} (r : result A) (k : A -> result B) : result B :=
  match r with
  | Ok a => k a
  | Raise e => Raise e
  end.

Notation "x <- c ;; k" := (bind c (fun x => k))
  (at level 61, c at next level, right associativity).

Fixpoint mapM {A B} (f : A -> result B) (l : list A) : result (list B) :=
  match l with
  | [] => Ok []
  | x :: t => y <- f x ;; ys <- mapM f t ;; Ok (y :: ys)
  end.

Definition is_ZeroDivisionError (c : exn_class) : bool :=
  match c with DivisionByZero => true | _ => false end.

(** ** decimal.Decimal at precision 30 *)

Record Decimal := mkDec { dsign : bool; dcoeff : N; dexp : Z }.

Definition prec : Z := 30.

(** [len(str(n))] *)
Fixpoint ndigits_fuel (fuel : nat) (n : Z) : Z :=
  match fuel with
  | O => 1
  | S f => if n <? 10 then 1 else 1 + ndigits_fuel f (n / 10)
  end.

Definition ndigits (n : N) : Z := ndigits_fuel (N.size_nat n) (Z.of_N n).

(** quotient [q] with remainder [r] out of [p], rounded half to even *)
Definition half_even (q r p : Z) : Z :=
  match 2 * r ?= p with
  | Lt => q
  | Gt => q + 1
  | Eq => if Z.even q then q else q + 1
  end.

(** [Decimal._fix]: round to [p] significant digits *)
Definition fix_to (p : Z) (d : Decimal) : Decimal :=
  let n := ndigits (dcoeff d) in
  if n <=? p then d
  else
    let shift := n - p in
    let c := Z.of_N (dcoeff d) in
    let q := half_even (c / 10 ^ shift) (c mod 10 ^ shift) (10 ^ shift) in
    if q =? 10 ^ p
    then mkDec (dsign d) (Z.to_N (q / 10)) (dexp d + shift + 1)
    else mkDec (dsign d) (Z.to_N q) (dexp d + shift).

Definition fix_ctx : Decimal -> Decimal := fix_to prec.

Definition dec_is_zero (d : Decimal) : bool := (dcoeff d =? 0)%N.

(** the integer [(-1)^sign * coeff * 10^(exp - e)], for [e <= exp] *)
Definition scaled (e : Z) (d : Decimal) : Z :=
  let m := Z.of_N (dcoeff d) * 10 ^ (dexp d - e) in
  if dsign d then - m else m.

Definition dec_of_int (z : Z) : Decimal := mkDec (z <? 0) (Z.abs_N z) 0.

Definition copy_negate (d : Decimal) : Decimal :=
  mkDec (negb (dsign d)) (dcoeff d) (dexp d).

(** [x * y] *)
Definition dec_mul (x y : Decimal) : Decimal :=
  fix_ctx (mkDec (xorb (dsign x) (dsign y)) (dcoeff x * dcoeff y) (dexp x + dexp y)).

(** [x + y] *)
Definition dec_add (x y : Decimal) : Decimal :=
  let e := Z.min (dexp x) (dexp y) in
  if dec_is_zero x && dec_is_zero y then
    fix_ctx (mkDec (dsign x && dsign y) 0 e)
  else if dec_is_zero x then
    let e' := Z.max e (dexp y - prec - 1) in
    fix_ctx (mkDec (dsign y) (Z.to_N (Z.of_N (dcoeff y) * 10 ^ (dexp y - e'))) e')
  else if dec_is_zero y then
    let e' := Z.max e (dexp x - prec - 1) in
    fix_ctx (mkDec (dsign x) (Z.to_N (Z.of_N (dcoeff x) * 10 ^ (dexp x - e'))) e')
  else
    let s := scaled e x + scaled e y in
    if s =? 0 then fix_ctx (mkDec false 0 e)
    else fix_ctx (mkDec (s <? 0) (Z.abs_N s) e).

(** [x - y] *)
Definition dec_sub (x y : Decimal) : Decimal := dec_add x (copy_negate y).

(** [-x] *)
Definition dec_neg (x : Decimal) : Decimal :=
  if dec_is_zero x then fix_ctx (mkDec false (dcoeff x) (dexp x))
  else fix_ctx (copy_negate x).

(** [abs(x)] *)
Definition dec_abs (x : Decimal) : Decimal :=
  if dsign x then dec_neg x else fix_ctx (mkDec false (dcoeff x) (dexp x)).

(** [x ** 2]: zero for a zero base; otherwise the square is rounded to
    prec + 3 digits and then to prec *)
Definition dec_sq (x : Decimal) : Decimal :=
  if dec_is_zero x then mkDec false 0 0
  else fix_ctx (fix_to (prec + 3) (mkDec false (dcoeff x * dcoeff x) (dexp x + dexp x))).

(** [x == y] and [x < y] compare the numbers, not the representations *)
Definition dec_eqb (x y : Decimal) : bool :=
  let e := Z.min (dexp x) (dexp y) in scaled e x =? scaled e y.

Definition dec_ltb (x y : Decimal) : bool :=
  let e := Z.min (dexp x) (dexp y) in scaled e x <? scaled e y.

Fixpoint strip_zeros (fuel : nat) (coeff exp ideal : Z) : Z * Z :=
  match fuel with
  | O => (coeff, exp)
  | S f =>
      if (exp <? ideal) && (coeff mod 10 =? 0)
      then strip_zeros f (coeff / 10) (exp + 1) ideal
      else (coeff, exp)
  end.

(** [x / y] *)
Definition dec_div (x y : Decimal) : result Decimal :=
  let sg := xorb (dsign x) (dsign y) in
  if dec_is_zero y then
    if dec_is_zero x
    then Raise (mkExn InvalidOperation "[<class 'decimal.DivisionUndefined'>]")
    else Raise (mkExn DivisionByZero "[<class 'decimal.DivisionByZero'>]")
  else if dec_is_zero x then
    Ok (fix_ctx (mkDec sg 0 (dexp x - dexp y)))
  else
    let shift := ndigits (dcoeff y) - ndigits (dcoeff x) + prec + 1 in
    let e := dexp x - dexp y - shift in
    let a := Z.of_N (dcoeff x) in
    let b := Z.of_N (dcoeff y) in
    let '(q, r) :=
      if 0 <=? shift then Z.div_eucl (a * 10 ^ shift) b
      else Z.div_eucl a (b * 10 ^ (- shift)) in
    let '(c, e') :=
      if r =? 0 then strip_zeros (Z.to_nat (ndigits (Z.to_N q))) q e (dexp x - dexp y)
      else (if q mod 5 =? 0 then q + 1 else q, e) in
    Ok (fix_ctx (mkDec sg (Z.to_N c) e')).


(** ** binary64 floats *)

(** [Ffin s m e] is [(-1)^s * m * 2^e] with [m < 2^53] and
    [-1074 <= e <= 971].  NaN does not arise: the floats of this program come
    from finite decimals, and [math.sqrt] raises on negative arguments. *)
Inductive pyfloat :=
| Fzero (s : bool)
| Finf (s : bool)
| Ffin (s : bool) (m : positive) (e : Z).

(** [floor (log2 (num / den))] for positive [num], [den] *)
Definition floor_log2_ratio (num den : Z) : Z :=
  let b := Z.log2 num - Z.log2 den in
  let above := if 0 <=? b then den * 2 ^ b <=? num else den <=? num * 2 ^ (- b) in
  if above then b else b - 1.

(** pack a rounded mantissa (at most [2^53]) and its exponent *)
Definition pack_float (s : bool) (m e : Z) : pyfloat :=
  let '(m', e') := if m =? 2 ^ 53 then (2 ^ 52, e + 1) else (m, e) in
  match m' with
  | Zpos p => if 971 <? e' then Finf s else Ffin s p e'
  | _ => Fzero s
  end.

(** the double nearest to [(-1)^s * num / den], ties to even *)
Definition round_binary64 (s : bool) (num den : Z) : pyfloat :=
  if num =? 0 then Fzero s
  else
    let e := Z.max (floor_log2_ratio num den - 52) (-1074) in
    let '(n, d) := if 0 <=? e then (num, den * 2 ^ e) else (num * 2 ^ (- e), den) in
    pack_float s (half_even (n / d) (n mod d) d) e.

(** [float(d)], i.e. [Decimal.__float__] *)
Definition float_of_Decimal (d : Decimal) : pyfloat :=
  let c := Z.of_N (dcoeff d) in
  if 0 <=? dexp d then round_binary64 (dsign d) (c * 10 ^ dexp d) 1
  else round_binary64 (dsign d) c (10 ^ (- dexp d)).

(** [math.sqrt] *)
Definition sqrt_finite (m : positive) (e : Z) : pyfloat :=
  let t := if Z.even e then 110 else 111 in
  let M := Zpos m * 2 ^ t in
  let s := Z.sqrt M in
  let exact := s * s =? M in
  let n := Z.log2 s - 52 in
  let q := s / 2 ^ n in
  let r := s mod 2 ^ n in
  let half := 2 ^ (n - 1) in
  let up := (half <? r) || ((r =? half) && (negb exact || Z.odd q)) in
  pack_float false (if up then q + 1 else q) ((e - t) / 2 + n).

Definition math_sqrt (x : pyfloat) : result pyfloat :=
  let domain := Raise (mkExn ValueError "math domain error") in
  match x with
  | Fzero s => Ok (Fzero s)
  | Finf false => Ok (Finf false)
  | Finf true => domain
  | Ffin false m e => Ok (sqrt_finite m e)
  | Ffin true _ _ => domain
  end.


(** A Decimal built from a float may be infinite. *)
Inductive xdecimal :=
| XFin (d : Decimal)
| XInf (s : bool).

Fixpoint trailing_zero_bits (p : positive) : Z :=
  match p with
  | xO p' => 1 + trailing_zero_bits p'
  | _ => 0
  end.

(** [Decimal(m * 2^e)] is exact: with [n/d] the fraction in lowest terms and
    [d = 2^k], the coefficient is [n * 5^k] and the exponent [-k]. *)
Definition Decimal_of_binary (s : bool) (m : N) (e : Z) : Decimal :=
  match m with
  | N0 => mkDec s 0 0
  | Npos p =>
      if 0 <=? e then mkDec s (Z.to_N (Zpos p * 2 ^ e)) 0
      else
        let tz := Z.min (trailing_zero_bits p) (- e) in
        let k := - e - tz in
        mkDec s (Z.to_N (Zpos p / 2 ^ tz * 5 ^ k)) (- k)
  end.

Definition Decimal_of_float (f : pyfloat) : xdecimal :=
  match f with
  | Fzero s => XFin (mkDec s 0 0)
  | Finf s => XInf s
  | Ffin s m e => XFin (Decimal_of_binary s (Npos m) e)
  end.

(** [d < f] for a Decimal [d] and a float [f] *)
Definition dec_lt_float (d : xdecimal) (f : pyfloat) : bool :=
  match d, Decimal_of_float f with
  | XFin a, XFin b => dec_ltb a b
  | XFin _, XInf s => negb s
  | XInf s, XFin _ => s
  | XInf s1, XInf s2 => s1 && negb s2
  end.

(** [Etiny] of the context, the exponent of [1.0 / Infinity] *)
Definition Etiny : Z := -999999 - prec + 1.

(** [x / m] where [m] came out of a float *)
Definition dec_div_x (x : Decimal) (m : xdecimal) : result Decimal :=
  match m with
  | XFin d => dec_div x d
  | XInf s => Ok (mkDec (xorb (dsign x) s) 0 Etiny)
  end.

(** The float [1e-10], the default [tolerance]. *)
Definition tolerance_default : pyfloat := Ffin false 7737125245533627 (-86).







(** ** The Vector class *)

Definition CANNOT_NORMALIZE_ZERO_VECTOR_MSG : string := "Cannot normalize the zero vector".
Definition NO_UNIQUE_ORTHOGONAL_COMPONENT_MSG : string := "No unique orthogonal component".

Record Vector := mkVector { coordinates : list Decimal; dimension : nat }.

(** What a caller may put in the list given to [Vector(...)]: an int, a
    finite float [(-1)^s * m * 2^e], a Decimal, or an object [Decimal()]
    rejects. *)
Inductive pyval :=
| PyInt (z : Z)
| PyFloat (s : bool) (m : N) (e : Z)
| PyDecimal (d : Decimal)
| PyNone.

(** [Decimal(x)]: exact, the context precision does not apply *)
Definition Decimal_new (x : pyval) : result Decimal :=
  match x with
  | PyInt z => Ok (dec_of_int z)
  | PyFloat s m e => Ok (Decimal_of_binary s m e)
  | PyDecimal d => Ok d
  | PyNone => Raise (mkExn TypeError "conversion from NoneType to Decimal is not supported")
  end.

(** [Vector.__init__] *)
Definition Vector_init (coords : list pyval) : result Vector :=
  let body :=
    match coords with
    | [] => Raise (mkExn ValueError "")
    | _ =>
        ds <- mapM Decimal_new coords ;;
        Ok (mkVector ds (List.length coords))
    end in
  match body with
  | Ok v => Ok v
  | Raise e =>
      match exn_cls e with
      | ValueError => Raise (mkExn ValueError "The coordinates must be nonempty")
      | TypeError => Raise (mkExn TypeError "The coordinates must be an iterable")
      | _ => Raise e
      end
  end.

(** [Vector(new_coordinates)] on a list of Decimals *)
Definition Vector_of (ds : list Decimal) : result Vector :=
  Vector_init (map PyDecimal ds).

(** [==] on tuples of Decimals *)
Fixpoint tuple_eqb (a b : list Decimal) : bool :=
  match a, b with
  | [], [] => true
  | x :: a', y :: b' => dec_eqb x y && tuple_eqb a' b'
  | _, _ => false
  end.

(** [Vector.__eq__] *)
Definition Vector_eq (self v : Vector) : bool :=
  tuple_eqb (coordinates self) (coordinates v).

(** [sum(l)]: starts from the int [0], so the first step is [x + Decimal(0)] *)
Definition py_sum (l : list Decimal) : Decimal :=
  match l with
  | [] => dec_of_int 0
  | x :: t => fold_left dec_add t (dec_add x (dec_of_int 0))
  end.

(** the list comprehension [[op(x, y) for x, y in zip(a, b)]] *)
Definition zip_with (op : Decimal -> Decimal -> Decimal) (a b : list Decimal)
  : list Decimal :=
  map (fun xy => op (fst xy) (snd xy)) (combine a b).

Definition plus (self v : Vector) : result Vector :=
  Vector_of (zip_with dec_add (coordinates self) (coordinates v)).

Definition minus (self v : Vector) : result Vector :=
  Vector_of (zip_with dec_sub (coordinates self) (coordinates v)).

Definition times_scalar (self : Vector) (c : pyval) : result Vector :=
  new_coordinates <-
    mapM (fun x => dc <- Decimal_new c ;; Ok (dec_mul dc x)) (coordinates self) ;;
  Vector_of new_coordinates.

Definition magnitude (self : Vector) : result xdecimal :=
  f <- math_sqrt (float_of_Decimal (py_sum (map dec_sq (coordinates self)))) ;;
  Ok (Decimal_of_float f).

(** [Decimal('1.0')] *)
Definition dec_1_0 : Decimal := mkDec false 10 (-1).

Definition normalize (self : Vector) : result Vector :=
  match (m <- magnitude self ;;
         c <- dec_div_x dec_1_0 m ;;
         times_scalar self (PyDecimal c)) with
  | Ok u => Ok u
  | Raise e =>
      if is_ZeroDivisionError (exn_cls e)
      then Raise (mkExn Exception CANNOT_NORMALIZE_ZERO_VECTOR_MSG)
      else Raise e
  end.

Definition dot (self v : Vector) : Decimal :=
  py_sum (zip_with dec_mul (coordinates self) (coordinates v)).



Definition is_zero (self : Vector) (tolerance : pyfloat) : result bool :=
  m <- magnitude self ;;
  Ok (dec_lt_float m tolerance).


Definition is_orthogonal_to (self v : Vector) (tolerance : pyfloat) : bool :=
  dec_lt_float (XFin (dec_abs (dot self v))) tolerance.



(** An element of the local tuples of [cross]: a coordinate, or the str
    ['0'] appended to a 2-dimensional operand. *)
Inductive cell :=
| CDec (d : Decimal)
| CStr (s : string).

(** [a * b] on such elements: a str times a Decimal is a TypeError *)
Definition cell_mul (a b : cell) : result Decimal :=
  match a, b with
  | CDec x, CDec y => Ok (dec_mul x y)
  | CStr _, CDec _ | CDec _, CStr _ =>
      Raise (mkExn TypeError "can't multiply sequence by non-int of type 'decimal.Decimal'")
  | CStr _, CStr _ =>
      Raise (mkExn TypeError "can't multiply sequence by non-int of type 'str'")
  end.

(** [x, y, z = t] *)
Definition unpack3 (t : list cell) : result (cell * cell * cell) :=
  match t with
  | [x; y; z] => Ok (x, y, z)
  | [] => Raise (mkExn ValueError "not enough values to unpack (expected 3, got 0)")
  | [_] => Raise (mkExn ValueError "not enough values to unpack (expected 3, got 1)")
  | [_; _] => Raise (mkExn ValueError "not enough values to unpack (expected 3, got 2)")
  | _ => Raise (mkExn ValueError "too many values to unpack (expected 3)")
  end.

Definition cross (self v : Vector) : result Vector :=
  let self_coordinates :=
    if Nat.eqb (dimension self) 2
    then (map CDec (coordinates self) ++ [CStr "0"])%list
    else map CDec (coordinates self) in
  let v_coordinates_ :=
    if Nat.eqb (dimension v) 2
    then (map CDec (coordinates v) ++ [CStr "0"])%list
    else map CDec (coordinates v) in
  t1 <- unpack3 self_coordinates ;;
  let '(x1, y1, z1) := t1 in
  t2 <- unpack3 (map CDec (coordinates v)) ;;
  let '(x2, y2, z2) := t2 in
  a1 <- cell_mul x1 y2 ;; a2 <- cell_mul y1 x2 ;;
  b1 <- cell_mul y1 z2 ;; b2 <- cell_mul z1 y2 ;;
  c1 <- cell_mul x1 z2 ;; c2 <- cell_mul z1 x2 ;;
  Vector_of [dec_sub a1 a2; dec_sub b1 b2; dec_sub (dec_neg c1) c2].

(** ** The data-model invariant *)

Definition wf (v : Vector) : Prop :=
  dimension v = List.length (coordinates v) /\ (1 <= dimension v)%nat.

Definition is_numeric (x : pyval) : bool :=
  match x with PyNone => false | _ => true end.

(** the zero vector: every coordinate is numerically zero *)
Definition zero_vector (v : Vector) : Prop :=
  Forall (fun d => dec_is_zero d = true) (coordinates v).

(** [magnitude()] came out as exactly zero *)
Definition magnitude_is_zero (v : Vector) : bool :=
  match magnitude v with
  | Ok (XFin d) => dec_is_zero d
  | _ => false
  end.

(** ** The cross product as the specification words it *)

(** a 2-dimensional operand with a zero third coordinate *)
Definition extend3 (v : Vector) : list Decimal :=
  if Nat.eqb (dimension v) 2 then (coordinates v ++ [dec_of_int 0])%list
  else coordinates v.

Definition cross_standard (v w : Vector) : result Vector :=
  match extend3 v, extend3 w with
  | [x1; y1; z1], [x2; y2; z2] =>
      Vector_of [dec_sub (dec_mul y1 z2) (dec_mul z1 y2);
                 dec_sub (dec_mul z1 x2) (dec_mul x1 z2);
                 dec_sub (dec_mul x1 y2) (dec_mul y1 x2)]
  | _, _ =>
      Raise (mkExn ValueError "cross product only defined for dimension 2 or 3")
  end.

(** ** Vectors used as examples *)

(** [Vector([1, 0, 0])], [Vector([0, 1, 0])] *)
Definition v_i3 : Vector := mkVector [dec_of_int 1; dec_of_int 0; dec_of_int 0] 3.
Definition v_j3 : Vector := mkVector [dec_of_int 0; dec_of_int 1; dec_of_int 0] 3.
(** [Vector([0, 0])], [Vector([0, 1])], [Vector([1])] *)
Definition v_zero2 : Vector := mkVector [dec_of_int 0; dec_of_int 0] 2.
Definition v_e2 : Vector := mkVector [dec_of_int 0; dec_of_int 1] 2.
(** [Vector([0.1])]: the double nearest 0.1 is 3602879701896397 / 2^55 *)
Definition v_tenth : Vector :=
  mkVector [Decimal_of_binary false 3602879701896397 (-55)] 1.

(** ** Coordinates on which sums are exact *)


(** ** Areas *)





(** ** Display *)

(** [round(x, places)] on a Decimal, that is
    [x.quantize(Decimal(10) ** -places)] *)
Definition dec_round (places : Z) (x : Decimal) : result Decimal :=
  let too_many := Raise (mkExn InvalidOperation "[<class 'decimal.InvalidOperation'>]") in
  if dec_is_zero x then Ok (mkDec (dsign x) 0 (- places))
  else if prec <? ndigits (dcoeff x) + dexp x + places then too_many
  else
    let c := Z.of_N (dcoeff x) in
    let q :=
      if - places <=? dexp x then c * 10 ^ (dexp x + places)
      else let p := 10 ^ (- places - dexp x) in half_even (c / p) (c mod p) p in
    if prec <? ndigits (Z.to_N q) then too_many
    else Ok (mkDec (dsign x) (Z.to_N q) (- places)).

Definition digit_char (d : Z) : Ascii.ascii :=
  Ascii.ascii_of_nat (48 + Z.to_nat d).

Fixpoint digits_fuel (fuel : nat) (n : Z) (acc : string) : string :=
  match fuel with
  | O => acc
  | S f =>
      let acc' := String (digit_char (n mod 10)) acc in
      if n <? 10 then acc' else digits_fuel f (n / 10) acc'
  end.

(** [str(n)] for an integer [n >= 0] *)
Definition str_of_Z (n : Z) : string :=
  digits_fuel (S (N.size_nat (Z.to_N n))) n "".

(** ['0' * k] *)
Fixpoint zeros (k : nat) : string :=
  match k with
  | O => ""
  | S k' => String (digit_char 0) (zeros k')
  end.

(** [str(d)]: the scientific string of the decimal module *)
Definition Decimal_str (d : Decimal) : string :=
  let digits := str_of_Z (Z.of_N (dcoeff d)) in
  let len := Z.of_nat (String.length digits) in
  let leftdigits := dexp d + len in
  let dotplace := if (dexp d <=? 0) && (-6 <? leftdigits) then leftdigits else 1 in
  let intpart :=
    if dotplace <=? 0 then "0"
    else if len <=? dotplace then digits ++ zeros (Z.to_nat (dotplace - len))
    else substring 0 (Z.to_nat dotplace) digits in
  let fracpart :=
    if dotplace <=? 0 then "." ++ zeros (Z.to_nat (- dotplace)) ++ digits
    else if len <=? dotplace then ""
    else "." ++ substring (Z.to_nat dotplace) (Z.to_nat (len - dotplace)) digits in
  let exp :=
    if leftdigits =? dotplace then ""
    else "E" ++ (if leftdigits - dotplace <? 0 then "-" else "+")
             ++ str_of_Z (Z.abs (leftdigits - dotplace)) in
  (if dsign d then "-" else "") ++ intpart ++ fracpart ++ exp.

(** [repr(d)] *)
Definition Decimal_repr (d : Decimal) : string :=
  "Decimal('" ++ Decimal_str d ++ "')".

(** [str(l)] for a list of Decimals *)
Definition list_str (l : list Decimal) : string :=
  "[" ++ String.concat ", " (map Decimal_repr l) ++ "]".

(** [Vector.__str__] *)
Definition Vector_str (self : Vector) : result string :=
  rounded <- mapM (dec_round 3) (coordinates self) ;;
  Ok ("Vector: " ++ list_str rounded).

(** [|x| >= 10^k] and [|x| < 10^k] for a Decimal [x] *)
Definition dec_abs_ge_pow10 (k : Z) (x : Decimal) : Prop :=
  dcoeff x <> 0%N /\ 10 ^ (k - dexp x) <= Z.of_N (dcoeff x).

Definition dec_abs_lt_pow10 (k : Z) (x : Decimal) : Prop :=
  dcoeff x = 0%N \/ Z.of_N (dcoeff x) < 10 ^ (k - dexp x).

(** * Properties *)

(** ** Construction *)

Lemma mapM_length {A B} (f : A -> result B) l ys :
  mapM f l = Ok ys -> List.length ys = List.length l.
Proof.
  revert ys; induction l as [|x t IH]; simpl; intros ys H.
  - now inversion H.
  - destruct (f x); simpl in H; [|discriminate].
    destruct (mapM f t); simpl in H; [|discriminate].
    inversion H; subst; simpl. now rewrite (IH _ eq_refl).
Qed.

Lemma mapM_total {A B} (f : A -> result B) (g : A -> B) l :
  (forall x, In x l -> f x = Ok (g x)) -> mapM f l = Ok (map g l).
Proof.
  induction l as [|x t IH]; simpl; intros H; [reflexivity|].
  rewrite (H x (or_introl eq_refl)); simpl.
  rewrite IH by (intros; apply H; now right). reflexivity.
Qed.

Lemma mapM_Decimal_new_numeric l :
  forallb is_numeric l = true -> exists ds, mapM Decimal_new l = Ok ds.
Proof.
  induction l as [|x t IH]; simpl; intros H; [now eexists|].
  apply andb_prop in H as [Hx Ht]. destruct (IH Ht) as [ds Hds].
  rewrite Hds. destruct x; try discriminate; simpl; now eexists.
Qed.

Lemma Vector_of_ok ds :
  ds <> [] -> Vector_of ds = Ok (mkVector ds (List.length ds)).
Proof.
  intros Hne. unfold Vector_of, Vector_init.
  rewrite (mapM_total Decimal_new (fun x => match x with PyDecimal d => d | _ => dec_of_int 0 end)).
  - destruct ds as [|d t]; [contradiction|]. simpl.
    rewrite !map_map, map_id, length_map. reflexivity.
  - intros x Hx. apply in_map_iff in Hx as [d [<- _]]. reflexivity.
Qed.



(** C5. Construction from a non-empty sequence of numbers (ints, finite
    floats, Decimals) succeeds and the dimension is the length of the
    sequence; construction from the empty sequence raises
    [ValueError('The coordinates must be nonempty')]. *)
Theorem construct_dimension :
  Vector_init [] = Raise (mkExn ValueError "The coordinates must be nonempty") /\
  forall values : list pyval,
    values <> [] ->
    forallb is_numeric values = true ->
    exists v, Vector_init values = Ok v /\
              dimension v = List.length values /\
              List.length (coordinates v) = List.length values.
Proof.
  split; [reflexivity|].
  intros values Hne Hnum.
  destruct (mapM_Decimal_new_numeric _ Hnum) as [ds Hds].
  exists (mkVector ds (List.length values)).
  unfold Vector_init. rewrite Hds.
  destruct values; [contradiction|]. simpl.
  repeat split. apply (mapM_length _ _ _ Hds).
Qed.

Lemma construct_dimension_witness :
  exists v, Vector_init [PyInt 3; PyFloat false 1 (-1); PyDecimal (mkDec true 25 (-1))] = Ok v /\
            dimension v = 3%nat /\ List.length (coordinates v) = 3%nat.
Proof.
  apply (proj2 construct_dimension
           [PyInt 3; PyFloat false 1 (-1); PyDecimal (mkDec true 25 (-1))]).
  - discriminate.
  - reflexivity.
Defined.

(** ** Arithmetic on operands of different dimensions *)

Lemma combine_truncate {A B} (l : list A) (l' : list B) :
  let n := Nat.min (List.length l) (List.length l') in
  combine l l' = combine (firstn n l) (firstn n l').
Proof.
  intros n. rewrite <- combine_firstn.
  symmetry. apply firstn_all2. rewrite length_combine. reflexivity.
Qed.

Lemma combine_nonempty {A B} (l : list A) (l' : list B) :
  l <> [] -> l' <> [] -> combine l l' <> [].
Proof. destruct l, l'; simpl; congruence. Qed.

Lemma wf_nonempty v : wf v -> coordinates v <> [].
Proof.
  intros [H1 H2] E. rewrite E in H1. simpl in H1. lia.
Qed.

Section Zip.
Variable op : Decimal -> Decimal -> Decimal.

Lemma zip_with_length a b :
  List.length (zip_with op a b) = Nat.min (List.length a) (List.length b).
Proof. unfold zip_with. now rewrite length_map, length_combine. Qed.

Lemma zip_with_truncate a b :
  let n := Nat.min (List.length a) (List.length b) in
  zip_with op a b = zip_with op (firstn n a) (firstn n b).
Proof. unfold zip_with. now rewrite <- combine_truncate. Qed.

Lemma zip_with_nonempty a b : a <> [] -> b <> [] -> zip_with op a b <> [].
Proof.
  unfold zip_with. destruct a, b; simpl; congruence.
Qed.

Lemma Vector_of_zip v w :
  wf v -> wf w ->
  exists u,
    Vector_of (zip_with op (coordinates v) (coordinates w)) = Ok u /\
    wf u /\
    dimension u = Nat.min (dimension v) (dimension w) /\
    coordinates u =
      zip_with op (firstn (dimension u) (coordinates v))
                  (firstn (dimension u) (coordinates w)).
Proof.
  intros Hv Hw.
  pose proof (wf_nonempty _ Hv) as Nv. pose proof (wf_nonempty _ Hw) as Nw.
  eexists. split; [apply Vector_of_ok, zip_with_nonempty; assumption|].
  destruct Hv as [Dv Pv], Hw as [Dw Pw].
  unfold wf; simpl. rewrite zip_with_length, <- Dv, <- Dw.
  repeat split; try lia.
  rewrite Dv, Dw. apply zip_with_truncate.
Qed.
End Zip.



(** ** Equality *)

Lemma tuple_eqb_length a b :
  tuple_eqb a b = true -> List.length a = List.length b.
Proof.
  revert b; induction a as [|x a IH]; destruct b as [|y b]; simpl; try discriminate; auto.
  intros H. apply andb_prop in H as [_ H]. now rewrite (IH _ H).
Qed.

Lemma dec_eqb_refl x : dec_eqb x x = true.
Proof. unfold dec_eqb. apply Z.eqb_refl. Qed.

Lemma tuple_eqb_refl a : tuple_eqb a a = true.
Proof.
  induction a as [|x a IH]; simpl; [reflexivity|].
  now rewrite dec_eqb_refl, IH.
Qed.

(** C9. [==] on two vectors of different dimensions is [False]; the
    comparison of the coordinate tuples is a total function, it raises
    nothing. *)
Theorem eq_different_dimension (v w : Vector) :
  wf v -> wf w ->
  dimension v <> dimension w ->
  Vector_eq v w = false.
Proof.
  intros [Dv _] [Dw _] H. unfold Vector_eq.
  destruct (tuple_eqb (coordinates v) (coordinates w)) eqn:E; [|reflexivity].
  apply tuple_eqb_length in E. congruence.
Qed.

Lemma eq_different_dimension_witness : Vector_eq v_e2 v_j3 = false.
Proof.
  apply (eq_different_dimension v_e2 v_j3).
  - split; simpl; lia.
  - split; simpl; lia.
  - simpl; lia.
Defined.

(** ** The magnitude never raises *)

Lemma fix_to_sign p d : dsign (fix_to p d) = dsign d.
Proof.
  unfold fix_to. destruct (_ <=? p); [reflexivity|].
  match goal with |- context [if ?c then _ else _] => destruct c end; reflexivity.
Qed.


Lemma scaled_nonneg e d : dsign d = false -> 0 <= scaled e d.
Proof.
  intros H. unfold scaled. rewrite H.
  apply Z.mul_nonneg_nonneg; [apply N2Z.is_nonneg|].
  apply Z.pow_nonneg. lia.
Qed.

Lemma dec_add_sign x y :
  dsign x = false -> dsign y = false -> dsign (dec_add x y) = false.
Proof.
  intros Hx Hy. unfold dec_add, fix_ctx.
  destruct (dec_is_zero x && dec_is_zero y).
  { rewrite fix_to_sign. simpl. now rewrite Hx. }
  destruct (dec_is_zero x); [now rewrite fix_to_sign|].
  destruct (dec_is_zero y); [now rewrite fix_to_sign|].
  destruct (_ =? 0); rewrite fix_to_sign; simpl; [reflexivity|].
  apply Z.ltb_ge.
  pose proof (scaled_nonneg (Z.min (dexp x) (dexp y)) x Hx).
  pose proof (scaled_nonneg (Z.min (dexp x) (dexp y)) y Hy). lia.
Qed.

Lemma fold_add_sign l a :
  dsign a = false -> Forall (fun d => dsign d = false) l ->
  dsign (fold_left dec_add l a) = false.
Proof.
  revert a; induction l as [|x t IH]; simpl; intros a Ha Hl; [assumption|].
  inversion Hl; subst. apply IH; [now apply dec_add_sign|assumption].
Qed.

Lemma py_sum_sign l :
  Forall (fun d => dsign d = false) l -> dsign (py_sum l) = false.
Proof.
  destruct l as [|x t]; simpl; intros H; [reflexivity|].
  inversion H; subst. apply fold_add_sign; [|assumption].
  now apply dec_add_sign.
Qed.








(** ** The magnitude of a zero vector *)

Lemma fold_add_zeros l :
  Forall (fun d => d = mkDec false 0 0) l ->
  fold_left dec_add l (mkDec false 0 0) = mkDec false 0 0.
Proof.
  induction l as [|x t IH]; simpl; intros H; [reflexivity|].
  inversion H; subst. now apply IH.
Qed.

Lemma sum_of_squares_zero l :
  Forall (fun d => dec_is_zero d = true) l ->
  py_sum (map dec_sq l) = mkDec false 0 0.
Proof.
  intros H.
  assert (Hz : Forall (fun d => d = mkDec false 0 0) (map dec_sq l)).
  { apply Forall_forall. intros d Hd. apply in_map_iff in Hd as [x [<- Hx]].
    unfold dec_sq. rewrite Forall_forall in H. now rewrite (H x Hx). }
  destruct (map dec_sq l) as [|x t]; [reflexivity|].
  inversion Hz; subst. simpl py_sum.
  change (dec_add (mkDec false 0 0) (dec_of_int 0)) with (mkDec false 0 0).
  now apply fold_add_zeros.
Qed.

Lemma zero_vector_magnitude v :
  zero_vector v -> magnitude v = Ok (XFin (mkDec false 0 0)).
Proof.
  intros H. unfold magnitude. rewrite (sum_of_squares_zero _ H). reflexivity.
Qed.

Lemma zero_vector_magnitude_is_zero v :
  zero_vector v -> magnitude_is_zero v = true.
Proof.
  intros H. unfold magnitude_is_zero. now rewrite (zero_vector_magnitude v H).
Qed.


(** ** Normalisation *)



Lemma normalize_zero v :
  magnitude_is_zero v = true ->
  normalize v = Raise (mkExn Exception CANNOT_NORMALIZE_ZERO_VECTOR_MSG).
Proof.
  unfold magnitude_is_zero, normalize. intros H.
  destruct (magnitude v) as [[d|s]|e]; try discriminate. simpl.
  unfold dec_div. rewrite H. reflexivity.
Qed.



(** ** Angles *)









(** ** Projections *)






(** ** Parallelism *)






(** ** Scaling by one *)





(** ** The invariant is preserved *)










(** ** The cross product *)

Lemma cross_i_j :
  cross v_i3 v_j3 = Ok (mkVector [dec_of_int 1; dec_of_int 0; dec_of_int 0] 3).
Proof. vm_compute. reflexivity. Qed.

(** C1 does not hold of the code.  On [Vector([1, 0, 0])] and
    [Vector([0, 1, 0])] [cross] returns (1, 0, 0) where the standard cross
    product is (0, 0, 1): the components are computed in another order and
    the last one with the wrong sign.  A 2-dimensional first operand is
    extended with the str ['0'] and the product raises TypeError; a
    2-dimensional second operand is unpacked without its extension and
    raises ValueError. *)
Theorem cross_is_not_the_standard_product :
  cross v_i3 v_j3 = Ok (mkVector [dec_of_int 1; dec_of_int 0; dec_of_int 0] 3) /\
  cross_standard v_i3 v_j3 = Ok (mkVector [dec_of_int 0; dec_of_int 0; dec_of_int 1] 3) /\
  Vector_eq (mkVector [dec_of_int 1; dec_of_int 0; dec_of_int 0] 3)
            (mkVector [dec_of_int 0; dec_of_int 0; dec_of_int 1] 3) = false /\
  cross v_e2 v_j3 =
    Raise (mkExn TypeError "can't multiply sequence by non-int of type 'decimal.Decimal'") /\
  cross v_i3 v_e2 =
    Raise (mkExn ValueError "not enough values to unpack (expected 3, got 2)") /\
  (exists s, cross_standard v_e2 v_j3 = Ok s) /\
  (exists s, cross_standard v_i3 v_e2 = Ok s).
Proof.
  repeat split; try (vm_compute; reflexivity);
    eexists; vm_compute; reflexivity.
Qed.

(** C2 does not hold of the code.  What [cross] returns on
    [Vector([1, 0, 0])] and [Vector([0, 1, 0])] is (1, 0, 0), whose dot
    product with the first operand is 1: [is_orthogonal_to] answers
    [False]. *)
Theorem cross_is_not_orthogonal :
  exists u, cross v_i3 v_j3 = Ok u /\
            is_orthogonal_to u v_i3 tolerance_default = false /\
            dec_eqb (dot u v_i3) (dec_of_int 1) = true.
Proof.
  eexists. split; [apply cross_i_j|]. split; vm_compute; reflexivity.
Qed.

(** * Further properties of the operations *)

(** ** Symmetry of the products and sums *)

Lemma dec_mul_comm x y : dec_mul x y = dec_mul y x.
Proof.
  unfold dec_mul. f_equal. f_equal.
  - apply xorb_comm.
  - apply N.mul_comm.
  - apply Z.add_comm.
Qed.

Lemma dec_add_comm x y : dec_add x y = dec_add y x.
Proof.
  unfold dec_add. rewrite (Z.min_comm (dexp y) (dexp x)).
  destruct (dec_is_zero x), (dec_is_zero y); simpl; try reflexivity.
  - now rewrite andb_comm.
  - now rewrite Z.add_comm.
Qed.

Lemma zip_with_comm op a b :
  (forall x y, op x y = op y x) -> zip_with op a b = zip_with op b a.
Proof.
  intros Hop. unfold zip_with. revert b.
  induction a as [|x a IH]; destruct b as [|y b]; simpl; try reflexivity.
  now rewrite Hop, IH.
Qed.

(** X1. The dot product is exactly symmetric, whatever the dimensions of
    the operands, and so is the orthogonality test. *)
Theorem dot_symmetric (v w : Vector) (tolerance : pyfloat) :
  dot v w = dot w v /\
  is_orthogonal_to v w tolerance = is_orthogonal_to w v tolerance.
Proof.
  assert (E : dot v w = dot w v).
  { unfold dot. now rewrite (zip_with_comm dec_mul _ _ dec_mul_comm). }
  split; [exact E|]. unfold is_orthogonal_to. now rewrite E.
Qed.

(** X2. [plus] is commutative: both orders raise or return the same
    vector. *)
Theorem plus_commutative (v w : Vector) : plus v w = plus w v.
Proof.
  unfold plus. now rewrite (zip_with_comm dec_add _ _ dec_add_comm).
Qed.

(** ** Signs *)

Lemma dec_mul_self_sign x : dsign (dec_mul x x) = false.
Proof.
  unfold dec_mul, fix_ctx. rewrite fix_to_sign. simpl. apply xorb_nilpotent.
Qed.

(** X3. The dot product of a vector with itself is never negative. *)
Theorem dot_self_nonnegative (v : Vector) : dsign (dot v v) = false.
Proof.
  unfold dot. apply py_sum_sign, Forall_forall. intros d Hd.
  unfold zip_with in Hd. apply in_map_iff in Hd as [[x y] [<- Hxy]]. simpl.
  assert (x = y).
  { clear - Hxy. induction (coordinates v) as [|a l IH]; simpl in Hxy; [contradiction|].
    destruct Hxy as [E|H]; [now inversion E|now apply IH]. }
  subst. apply dec_mul_self_sign.
Qed.






(** ** Construction from something that is not a number *)




(** ** The outcomes of normalisation and projection *)




(** ** When the cross product returns *)



(** ** Symmetry of the angle and of parallelism *)




(** ** Equality is an equivalence on numbers *)

Lemma scaled_shift e e' d :
  e' <= e -> e <= dexp d -> scaled e' d = scaled e d * 10 ^ (e - e').
Proof.
  intros H1 H2. unfold scaled.
  replace (dexp d - e') with ((dexp d - e) + (e - e')) by lia.
  rewrite Z.pow_add_r by lia. destruct (dsign d); ring.
Qed.

Lemma dec_eqb_sym x y : dec_eqb x y = dec_eqb y x.
Proof. unfold dec_eqb. rewrite Z.min_comm. apply Z.eqb_sym. Qed.

Lemma dec_eqb_trans x y z :
  dec_eqb x y = true -> dec_eqb y z = true -> dec_eqb x z = true.
Proof.
  unfold dec_eqb. rewrite !Z.eqb_eq. intros H1 H2.
  set (m := Z.min (dexp x) (Z.min (dexp y) (dexp z))).
  assert (E1 : scaled m x = scaled m y).
  { rewrite (scaled_shift (Z.min (dexp x) (dexp y)) m x),
            (scaled_shift (Z.min (dexp x) (dexp y)) m y), H1 by (subst m; lia).
    reflexivity. }
  assert (E2 : scaled m y = scaled m z).
  { rewrite (scaled_shift (Z.min (dexp y) (dexp z)) m y),
            (scaled_shift (Z.min (dexp y) (dexp z)) m z), H2 by (subst m; lia).
    reflexivity. }
  rewrite (scaled_shift (Z.min (dexp x) (dexp z)) m x),
          (scaled_shift (Z.min (dexp x) (dexp z)) m z) in * by (subst m; lia).
  assert (P : 0 < 10 ^ (Z.min (dexp x) (dexp z) - m))
    by (apply Z.pow_pos_nonneg; subst m; lia).
  apply (Z.mul_cancel_r _ _ (10 ^ (Z.min (dexp x) (dexp z) - m))); [lia|].
  congruence.
Qed.

Lemma tuple_eqb_sym a b : tuple_eqb a b = tuple_eqb b a.
Proof.
  revert b; induction a as [|x a IH]; destruct b as [|y b]; simpl; try reflexivity.
  now rewrite dec_eqb_sym, IH.
Qed.

Lemma tuple_eqb_trans a b c :
  tuple_eqb a b = true -> tuple_eqb b c = true -> tuple_eqb a c = true.
Proof.
  revert b c; induction a as [|x a IH]; destruct b as [|y b]; destruct c as [|z c];
    simpl; try discriminate; auto.
  intros H1 H2. apply andb_prop in H1 as [H1 H1'], H2 as [H2 H2'].
  now rewrite (dec_eqb_trans x y z H1 H2), (IH b c H1' H2').
Qed.

Lemma dec_eqb_zeros s1 s2 e1 e2 : dec_eqb (mkDec s1 0 e1) (mkDec s2 0 e2) = true.
Proof.
  unfold dec_eqb, scaled. simpl. destruct s1, s2; reflexivity.
Qed.

Lemma dec_eqb_trailing_zero x :
  dec_eqb x (mkDec (dsign x) (dcoeff x * 10) (dexp x - 1)) = true.
Proof.
  unfold dec_eqb, scaled. simpl. apply Z.eqb_eq.
  replace (Z.min (dexp x) (dexp x - 1)) with (dexp x - 1) by lia.
  replace (dexp x - (dexp x - 1)) with 1 by lia.
  replace (dexp x - 1 - (dexp x - 1)) with 0 by lia.
  rewrite N2Z.inj_mul. change (10 ^ 1) with 10. change (10 ^ 0) with 1.
  change (Z.of_N 10) with 10. destruct (dsign x); ring.
Qed.

(** X11. [==] on vectors is an equivalence relation (reflexive, symmetric,
    transitive), and it compares numbers, not representations: zeros of any
    sign and exponent are equal, and a coordinate written with one more
    trailing zero is equal to the original. *)
Theorem eq_is_equivalence :
  (forall v, Vector_eq v v = true) /\
  (forall v w, Vector_eq v w = Vector_eq w v) /\
  (forall u v w, Vector_eq u v = true -> Vector_eq v w = true -> Vector_eq u w = true) /\
  (forall s1 s2 e1 e2 n,
     Vector_eq (mkVector [mkDec s1 0 e1] n) (mkVector [mkDec s2 0 e2] n) = true) /\
  (forall x n,
     Vector_eq (mkVector [x] n)
               (mkVector [mkDec (dsign x) (dcoeff x * 10) (dexp x - 1)] n) = true).
Proof.
  unfold Vector_eq. repeat split.
  - intros v. apply tuple_eqb_refl.
  - intros v w. apply tuple_eqb_sym.
  - intros u v w. apply tuple_eqb_trans.
  - intros. simpl. now rewrite dec_eqb_zeros.
  - intros. simpl. now rewrite dec_eqb_trailing_zero.
Qed.

Lemma eq_is_equivalence_witness : Vector_eq v_i3 v_i3 = true.
Proof.
  apply (proj1 (proj2 (proj2 eq_is_equivalence)) v_i3 v_i3 v_i3);
    apply (proj1 eq_is_equivalence).
Defined.

(** ** Adding and taking away again *)

Lemma ndigits_fuel_le fuel : forall n k,
  1 <= k -> n < 10 ^ k -> ndigits_fuel fuel n <= k.
Proof.
  induction fuel as [|f IH]; intros n k Hk Hn; cbn [ndigits_fuel]; [lia|].
  destruct (n <? 10) eqn:E; [lia|]. apply Z.ltb_ge in E.
  assert (2 <= k).
  { destruct (Z.eq_dec k 1) as [->|]; [change (10 ^ 1) with 10 in Hn; lia|lia]. }
  assert (n / 10 < 10 ^ (k - 1)).
  { apply Z.div_lt_upper_bound; [lia|].
    replace k with (1 + (k - 1)) in Hn by lia.
    rewrite Z.pow_add_r in Hn by lia. exact Hn. }
  specialize (IH (n / 10) (k - 1)). lia.
Qed.




Lemma scaled_copy_negate e y : scaled e (copy_negate y) = - scaled e y.
Proof. unfold scaled, copy_negate. simpl. destruct (dsign y); simpl; ring. Qed.





(** ** Zero vectors *)

Lemma fix_ctx_zero d : dec_is_zero d = true -> dec_is_zero (fix_ctx d) = true.
Proof.
  unfold dec_is_zero. intros H. apply N.eqb_eq in H.
  unfold fix_ctx, fix_to. rewrite H. simpl. now rewrite H.
Qed.

Lemma dec_mul_zero_r x y : dec_is_zero y = true -> dec_is_zero (dec_mul x y) = true.
Proof.
  unfold dec_is_zero. intros H. apply N.eqb_eq in H.
  unfold dec_mul. apply fix_ctx_zero. unfold dec_is_zero. simpl.
  now rewrite H, N.mul_0_r.
Qed.

Lemma dec_add_zero x y :
  dec_is_zero x = true -> dec_is_zero y = true -> dec_is_zero (dec_add x y) = true.
Proof.
  intros Hx Hy. unfold dec_add. rewrite Hx, Hy. simpl.
  now apply fix_ctx_zero.
Qed.

Lemma py_sum_zero l :
  Forall (fun d => dec_is_zero d = true) l -> dec_is_zero (py_sum l) = true.
Proof.
  assert (F : forall t a, dec_is_zero a = true ->
                          Forall (fun d => dec_is_zero d = true) t ->
                          dec_is_zero (fold_left dec_add t a) = true).
  { induction t as [|x t IH]; simpl; intros a Ha Ht; [assumption|].
    inversion Ht; subst. apply IH; [now apply dec_add_zero|assumption]. }
  destruct l as [|x t]; simpl; intros H; [reflexivity|].
  inversion H; subst. apply F; [|assumption]. now apply dec_add_zero.
Qed.

Lemma dec_abs_zero x : dec_is_zero x = true -> dec_is_zero (dec_abs x) = true.
Proof.
  intros H. unfold dec_abs, dec_neg. rewrite H.
  destruct (dsign x); now apply fix_ctx_zero.
Qed.

Lemma tolerance_as_Decimal :
  exists c, Decimal_of_float tolerance_default = XFin (mkDec false (Npos c) (-86)).
Proof. eexists. vm_compute. reflexivity. Qed.

Lemma zero_below_tolerance z :
  dec_is_zero z = true -> dec_lt_float (XFin z) tolerance_default = true.
Proof.
  unfold dec_is_zero. intros H. apply N.eqb_eq in H.
  destruct tolerance_as_Decimal as [c Hc].
  unfold dec_lt_float. rewrite Hc. unfold dec_ltb, scaled.
  cbn [dsign dcoeff dexp]. rewrite H.
  change (Z.of_N 0) with 0. change (Z.of_N (Npos c)) with (Zpos c).
  rewrite Z.mul_0_l. apply Z.ltb_lt.
  assert (0 < 10 ^ (-86 - Z.min (dexp z) (-86)))
    by (apply Z.pow_pos_nonneg; lia).
  assert (0 < Zpos c * 10 ^ (-86 - Z.min (dexp z) (-86)))
    by (apply Z.mul_pos_pos; [reflexivity|assumption]).
  destruct (dsign z); assumption.
Qed.

Lemma dot_zero_r v z : zero_vector z -> dec_is_zero (dot v z) = true.
Proof.
  intros Z. unfold dot. apply py_sum_zero, Forall_forall. intros d Hd.
  unfold zip_with in Hd. apply in_map_iff in Hd as [[x y] [<- Hxy]]. simpl.
  apply dec_mul_zero_r. apply in_combine_r in Hxy.
  unfold zero_vector in Z. rewrite Forall_forall in Z. now apply Z.
Qed.

(** X13. A zero vector is orthogonal to every vector, on either side and
    whatever the dimensions: the dot product is a zero, which is below the
    default tolerance. *)
Theorem zero_vector_orthogonal (z v : Vector) :
  zero_vector z ->
  dec_is_zero (dot v z) = true /\
  is_orthogonal_to v z tolerance_default = true /\
  is_orthogonal_to z v tolerance_default = true.
Proof.
  intros Z. pose proof (dot_zero_r v z Z) as D.
  assert (O : is_orthogonal_to v z tolerance_default = true).
  { unfold is_orthogonal_to. now apply zero_below_tolerance, dec_abs_zero. }
  repeat split; try assumption.
  unfold is_orthogonal_to in *.
  replace (dot z v) with (dot v z); [exact O|].
  unfold dot. now rewrite (zip_with_comm dec_mul _ _ dec_mul_comm).
Qed.

Lemma zero_vector_orthogonal_witness :
  is_orthogonal_to v_e2 v_zero2 tolerance_default = true.
Proof.
  apply (zero_vector_orthogonal v_zero2 v_e2). repeat constructor.
Defined.

Lemma dec_sub_self x : dec_is_zero (dec_sub x x) = true.
Proof.
  unfold dec_sub, dec_add.
  change (dec_is_zero (copy_negate x)) with (dec_is_zero x).
  destruct (dec_is_zero x); simpl; [now apply fix_ctx_zero|].
  rewrite scaled_copy_negate, Z.add_opp_diag_r. simpl.
  now apply fix_ctx_zero.
Qed.

Lemma in_combine_self {A} (l : list A) x y : In (x, y) (combine l l) -> x = y.
Proof.
  induction l as [|a l IH]; simpl; [contradiction|].
  intros [E|H]; [now inversion E|now apply IH].
Qed.

(** X14. Subtracting a vector from itself gives a zero vector of the same
    dimension, whatever the number of digits of the coordinates; [is_zero]
    holds of it and [normalize] refuses it. *)
Theorem minus_self (v : Vector) :
  wf v ->
  exists u, minus v v = Ok u /\
            zero_vector u /\
            dimension u = dimension v /\
            is_zero u tolerance_default = Ok true /\
            normalize u = Raise (mkExn Exception CANNOT_NORMALIZE_ZERO_VECTOR_MSG).
Proof.
  intros Wv.
  destruct (Vector_of_zip dec_sub v v Wv Wv) as [u [Eu [Wu [Du Cu]]]].
  exists u. split; [exact Eu|].
  assert (Z : zero_vector u).
  { unfold zero_vector. rewrite Cu. apply Forall_forall. intros d Hd.
    unfold zip_with in Hd. apply in_map_iff in Hd as [[x y] [<- Hxy]]. simpl.
    apply in_combine_self in Hxy. subst. apply dec_sub_self. }
  repeat split.
  - exact Z.
  - rewrite Du. apply Nat.min_id.
  - unfold is_zero. now rewrite (zero_vector_magnitude u Z).
  - apply normalize_zero. now apply zero_vector_magnitude_is_zero.
Qed.

Lemma minus_self_witness :
  exists u, minus v_tenth v_tenth = Ok u /\ zero_vector u /\
            dimension u = 1%nat /\
            is_zero u tolerance_default = Ok true /\
            normalize u = Raise (mkExn Exception CANNOT_NORMALIZE_ZERO_VECTOR_MSG).
Proof.
  apply (minus_self v_tenth). split; simpl; lia.
Defined.

(** ** Areas *)





(** ** Display *)

Lemma ndigits_fuel_pos fuel n : 1 <= ndigits_fuel fuel n.
Proof.
  revert n; induction fuel as [|f IH]; intros n; cbn [ndigits_fuel]; [lia|].
  destruct (n <? 10); [lia|]. specialize (IH (n / 10)). lia.
Qed.

Lemma ndigits_fuel_ge fuel : forall n j,
  0 <= j -> 10 ^ j <= n -> n < 2 ^ Z.of_nat fuel -> j + 1 <= ndigits_fuel fuel n.
Proof.
  induction fuel as [|f IH]; intros n j Hj Hn Hf; cbn [ndigits_fuel].
  - change (2 ^ Z.of_nat 0) with 1 in Hf.
    assert (0 < 10 ^ j) by (apply Z.pow_pos_nonneg; lia). lia.
  - rewrite Nat2Z.inj_succ, Z.pow_succ_r in Hf by lia.
    destruct (n <? 10) eqn:E.
    + apply Z.ltb_lt in E. destruct (Z.eq_dec j 0) as [->|]; [lia|].
      assert (10 ^ 1 <= 10 ^ j) by (apply Z.pow_le_mono_r; lia).
      change (10 ^ 1) with 10 in *. lia.
    + apply Z.ltb_ge in E. pose proof (ndigits_fuel_pos f (n / 10)).
      destruct (Z.eq_dec j 0) as [->|]; [lia|].
      assert (10 ^ (j - 1) <= n / 10).
      { apply Z.div_le_lower_bound; [lia|].
        replace j with (1 + (j - 1)) in Hn by lia.
        rewrite Z.pow_add_r in Hn by lia. exact Hn. }
      assert (n / 10 < 2 ^ Z.of_nat f)
        by (apply Z.div_lt_upper_bound; lia).
      specialize (IH (n / 10) (j - 1)). lia.
Qed.

Lemma size_nat_bound p : Zpos p < 2 ^ Z.of_nat (Pos.size_nat p).
Proof.
  induction p as [p IH|p IH|]; cbn [Pos.size_nat];
    rewrite Nat2Z.inj_succ, Z.pow_succ_r by lia; lia.
Qed.

Lemma ndigits_ge c j :
  0 <= j -> 10 ^ j <= Z.of_N c -> j + 1 <= ndigits c.
Proof.
  intros Hj H. unfold ndigits. apply ndigits_fuel_ge; try assumption.
  destruct c as [|p]; simpl.
  - assert (0 < 10 ^ j) by (apply Z.pow_pos_nonneg; lia). simpl in H. lia.
  - apply size_nat_bound.
Qed.

Lemma ndigits_le c k : 1 <= k -> Z.of_N c < 10 ^ k -> ndigits c <= k.
Proof. intros. unfold ndigits. now apply ndigits_fuel_le. Qed.

Lemma half_even_bounds q r p : q <= half_even q r p <= q + 1.
Proof.
  unfold half_even. destruct (2 * r ?= p); [destruct (Z.even q)| |]; lia.
Qed.

Lemma dec_round_large x :
  dec_abs_ge_pow10 27 x ->
  dec_round 3 x = Raise (mkExn InvalidOperation "[<class 'decimal.InvalidOperation'>]").
Proof.
  intros [Hc H]. unfold dec_round, dec_is_zero.
  destruct (N.eqb_spec (dcoeff x) 0) as [E|_]; [contradiction|].
  assert (L : (prec <? ndigits (dcoeff x) + dexp x + 3) = true).
  { apply Z.ltb_lt. unfold prec. destruct (Z.le_gt_cases 0 (27 - dexp x)).
    - pose proof (ndigits_ge (dcoeff x) (27 - dexp x)). lia.
    - pose proof (ndigits_fuel_pos (N.size_nat (dcoeff x)) (Z.of_N (dcoeff x))).
      unfold ndigits. lia. }
  now rewrite L.
Qed.

Lemma dec_round_small x :
  dec_abs_lt_pow10 26 x -> exists r, dec_round 3 x = Ok r.
Proof.
  intros H. unfold dec_round, dec_is_zero.
  destruct (N.eqb_spec (dcoeff x) 0) as [E|N]; [now eexists|].
  destruct H as [H|H]; [contradiction|].
  pose proof (N2Z.is_nonneg (dcoeff x)) as P.
  assert (Q : 0 < Z.of_N (dcoeff x)) by lia.
  assert (K : 1 <= 26 - dexp x).
  { destruct (Z.le_gt_cases 1 (26 - dexp x)) as [|G]; [assumption|].
    destruct (Z.eq_dec (26 - dexp x) 0) as [E0|];
      [rewrite E0 in H; change (10 ^ 0) with 1 in H; lia|].
    rewrite Z.pow_neg_r in H by lia. lia. }
  pose proof (ndigits_le (dcoeff x) (26 - dexp x) K H) as L1.
  assert (C1 : (prec <? ndigits (dcoeff x) + dexp x + 3) = false)
    by (apply Z.ltb_ge; unfold prec; lia).
  rewrite C1.
  assert (B : forall q, 0 <= q < 10 ^ 30 -> (prec <? ndigits (Z.to_N q)) = false).
  { intros q [Hq0 Hq]. apply Z.ltb_ge. unfold prec.
    apply ndigits_le; [lia|]. now rewrite Z2N.id. }
  change (Z.opp 3) with (-3).
  destruct (-3 <=? dexp x) eqn:E3.
  - apply Z.leb_le in E3. rewrite B; [now eexists|].
    assert (P3 : 0 < 10 ^ (dexp x + 3)) by (apply Z.pow_pos_nonneg; lia).
    split; [apply Z.mul_nonneg_nonneg; lia|].
    assert (T : 10 ^ 30 = 10 * (10 ^ (26 - dexp x) * 10 ^ (dexp x + 3))).
    { rewrite <- Z.pow_add_r by lia.
      replace (26 - dexp x + (dexp x + 3)) with 29 by lia. reflexivity. }
    pose proof (proj1 (Z.mul_lt_mono_pos_r _ _ _ P3) H) as M.
    assert (0 <= Z.of_N (dcoeff x) * 10 ^ (dexp x + 3))
      by (apply Z.mul_nonneg_nonneg; lia).
    rewrite T. lia.
  - apply Z.leb_gt in E3.
    set (p := 10 ^ (- 3 - dexp x)).
    assert (Pp : 0 < p) by (apply Z.pow_pos_nonneg; lia).
    pose proof (half_even_bounds (Z.of_N (dcoeff x) / p) (Z.of_N (dcoeff x) mod p) p) as HB.
    assert (D0 : 0 <= Z.of_N (dcoeff x) / p) by (apply Z.div_pos; lia).
    assert (D1 : Z.of_N (dcoeff x) / p < 10 ^ 29).
    { apply Z.div_lt_upper_bound; [assumption|].
      replace (26 - dexp x) with ((- 3 - dexp x) + 29) in H by lia.
      rewrite Z.pow_add_r in H by lia. exact H. }
    rewrite B; [now eexists|].
    assert (T : 10 ^ 30 = 10 * 10 ^ 29) by reflexivity. lia.
Qed.

Lemma mapM_all_ok {A B} (f : A -> result B) l :
  Forall (fun x => exists y, f x = Ok y) l -> exists ys, mapM f l = Ok ys.
Proof.
  induction 1 as [|x l [y Hy] _ [ys Hys]]; simpl; [now eexists|].
  rewrite Hy; simpl. rewrite Hys; simpl. now eexists.
Qed.

Lemma mapM_raises {A B} (f : A -> result B) E l :
  (forall x, (exists y, f x = Ok y) \/ f x = Raise E) ->
  Exists (fun x => f x = Raise E) l -> mapM f l = Raise E.
Proof.
  intros Hf. induction 1 as [x l Hx|x l _ IH]; simpl.
  - now rewrite Hx.
  - destruct (Hf x) as [[y ->]| ->]; simpl; [now rewrite IH|reflexivity].
Qed.

Lemma dec_round_outcomes x :
  (exists y, dec_round 3 x = Ok y) \/
  dec_round 3 x = Raise (mkExn InvalidOperation "[<class 'decimal.InvalidOperation'>]").
Proof.
  unfold dec_round.
  destruct (dec_is_zero x); [left; now eexists|].
  destruct (prec <? _); [now right|].
  destruct (prec <? _); [now right|left; now eexists].
Qed.

(** X16. [__str__] rounds every coordinate to three places before it
    formats them.  When every coordinate is below 10^26 in absolute value it
    returns the string; when some coordinate is at least 10^27 in absolute
    value it raises decimal.InvalidOperation, because the rounded value
    would need more than the 30 digits of the context. *)
Theorem str_outcomes (v : Vector) :
  (Forall (dec_abs_lt_pow10 26) (coordinates v) ->
   exists rounded, mapM (dec_round 3) (coordinates v) = Ok rounded /\
                   Vector_str v = Ok ("Vector: " ++ list_str rounded)) /\
  (Exists (dec_abs_ge_pow10 27) (coordinates v) ->
   Vector_str v = Raise (mkExn InvalidOperation "[<class 'decimal.InvalidOperation'>]")).
Proof.
  unfold Vector_str. split.
  - intros H.
    destruct (mapM_all_ok (dec_round 3) (coordinates v)) as [ys Hys].
    { revert H. apply Forall_impl. apply dec_round_small. }
    exists ys. rewrite Hys. split; reflexivity.
  - intros H.
    rewrite (mapM_raises (dec_round 3) _ (coordinates v) dec_round_outcomes).
    + reflexivity.
    + revert H. apply Exists_impl. apply dec_round_large.
Qed.

Lemma str_of_v_e2 :
  Vector_str v_e2 = Ok "Vector: [Decimal('0.000'), Decimal('1.000')]".
Proof. vm_compute. reflexivity. Qed.

Lemma str_outcomes_witness :
  (exists rounded, mapM (dec_round 3) (coordinates v_e2) = Ok rounded /\
                   Vector_str v_e2 = Ok ("Vector: " ++ list_str rounded)) /\
  Vector_str (mkVector [mkDec false 1 27] 1) =
    Raise (mkExn InvalidOperation "[<class 'decimal.InvalidOperation'>]").
Proof.
  split.
  - apply (proj1 (str_outcomes v_e2)).
    apply Forall_cons; [left; reflexivity|].
    apply Forall_cons; [right; vm_compute; reflexivity|apply Forall_nil].
  - apply (proj2 (str_outcomes (mkVector [mkDec false 1 27] 1))).
    apply Exists_cons_hd. split; [discriminate|vm_compute; discriminate].
Defined.

(** ** Zero vectors under scaling and projection *)

Lemma dec_mul_zero_l x y : dec_is_zero x = true -> dec_is_zero (dec_mul x y) = true.
Proof. intros H. rewrite dec_mul_comm. now apply dec_mul_zero_r. Qed.

Lemma map_mul_zero d l :
  dec_is_zero d = true ->
  Forall (fun x => dec_is_zero x = true) (map (dec_mul d) l).
Proof.
  intros H. apply Forall_forall. intros y Hy.
  apply in_map_iff in Hy as [x [<- _]]. now apply dec_mul_zero_l.
Qed.

(** X17. Scaling by the integer 0 returns a zero vector of the same
    dimension. *)
Theorem times_scalar_zero (v : Vector) :
  wf v ->
  exists u, times_scalar v (PyInt 0) = Ok u /\
            zero_vector u /\
            dimension u = dimension v.
Proof.
  intros Wv. pose proof (wf_nonempty v Wv) as Nv.
  exists (mkVector (map (dec_mul (dec_of_int 0)) (coordinates v))
                   (List.length (coordinates v))).
  split; [|split].
  - unfold times_scalar. rewrite (mapM_total _ (dec_mul (dec_of_int 0))) by reflexivity.
    simpl. rewrite Vector_of_ok, length_map; [reflexivity|].
    destruct (coordinates v); [contradiction|discriminate].
  - now apply map_mul_zero.
  - simpl. now destruct Wv as [-> _].
Qed.

Lemma times_scalar_zero_witness :
  exists u, times_scalar v_tenth (PyInt 0) = Ok u /\
            zero_vector u /\ dimension u = 1%nat.
Proof. apply (times_scalar_zero v_tenth). split; simpl; lia. Defined.


